(** * aumix: waveform generation and .wav encoding

    A shallow embedding of [aumix/signal/simple_signal.py] and
    [aumix/io/wav.py].

    Numbers.  The Python code computes on numpy [float64] arrays.  The
    embedding idealises [float64] as the real numbers [R]: rounding,
    infinities and NaN are outside the model, and a division by zero has
    the value the real-number library gives it.  Arrays are one-dimensional
    and modelled as [list R].  The sawtooth needs no transcendental
    function, so that one path is embedded a second time in IEEE binary64
    ([Float64]), where the code runs as written, NaN included.

    Library calls.  [np.arange], [np.min], [np.max], [np.mod],
    [scipy.signal.square], [scipy.signal.sawtooth], [ndarray.astype],
    [str.split], [str.join] and [strftime] are modelled after their
    documented behaviour; the operating system ([os.path.exists],
    [os.makedirs], [datetime.now], [wavfile.write]) is an interface whose
    calls a program issues and a handler answers. *)

From Stdlib Require Import Reals Lra Lia ZArith List String Ascii Bool.
From Stdlib Require PrimFloat FloatOps SpecFloat Uint63.
Import ListNotations.

Open Scope R_scope.

(** ** Rounding of reals to integers *)

Module Rounding.

(** Largest integer not above [x]. *)
Definition floor (x : R) : Z := Int_part x.

(** Smallest integer not below [x]. *)
Definition ceil (x : R) : Z := (- floor (- x))%Z.

(** Rounding toward zero, the C conversion of a floating value to an
    integer type. *)
Definition trunc (x : R) : Z :=
  if Rle_dec 0 x then floor x else ceil x.

End Rounding.

(** ** The numpy and scipy operations the program calls *)

Module Np.
Import Rounding.

(** [np.arange(stop)]: the values [0, 1, 2, ...] inside the half-open
    interval [[0, stop)]; numpy takes [ceil(stop)] of them, and none when
    [stop] is not positive. *)
Definition arange_len (stop : R) : nat := Z.to_nat (ceil stop).

Definition arange (stop : R) : list R := map INR (seq 0 (arange_len stop)).

(** [np.mod(x, y)]: the remainder that has the sign of the divisor.  For
    [x >= 0] and [y > 0] numpy returns the C [fmod], which is exact, and
    this is it.  For [x < 0] numpy adds [y] to a negative [fmod] and rounds
    the sum, which can give [y] itself; that case needs the rounding and is
    embedded in [Float64.mod_]. *)
Definition mod_ (x y : R) : R := x - IZR (floor (x / y)) * y.

(** [np.finfo(np.float64).max], the largest finite [float64]. *)
Definition float64_max : R := IZR ((2 ^ 53 - 1) * 2 ^ 971).

(** [np.max] and [np.min] of a one-dimensional array; on an empty array
    numpy raises [ValueError], which is [None] here. *)
Definition max (a : list R) : option R :=
  match a with
  | [] => None
  | x :: a' => Some (fold_left Rmax a' x)
  end.

Definition min (a : list R) : option R :=
  match a with
  | [] => None
  | x :: a' => Some (fold_left Rmin a' x)
  end.

End Np.

Module Scipy.

(** [scipy.signal.square(t)] with its default [duty=0.5]: 1 on the first
    [duty] part of each period of length [2*pi], -1 on the rest. *)
Definition square_duty : R := 1 / 2.

Definition square (t : R) : R :=
  let w := square_duty in
  let tmod := Np.mod_ t (2 * PI) in
  if Rlt_dec tmod (w * 2 * PI) then 1 else -1.

(** [scipy.signal.sawtooth(t)] with its default [width=1]: the rising ramp
    [tmod / (pi*w) - 1] while [tmod < w*2*pi], the falling ramp
    [(pi*(w+1) - tmod) / (pi*(1-w))] after it. *)
Definition sawtooth_width : R := 1.

Definition sawtooth (t : R) : R :=
  let w := sawtooth_width in
  let tmod := Np.mod_ t (2 * PI) in
  if Rlt_dec tmod (w * 2 * PI)
  then tmod / (PI * w) - 1
  else (PI * (w + 1) - tmod) / (PI * (1 - w)).

End Scipy.

(** ** The sawtooth path in IEEE binary64

    The same calls on Rocq's primitive floats, which are binary64 with
    round-to-nearest-even: [np.arange], the division by the sampling rate,
    [np.pi * freq * samp_nums], [np.mod], [scipy.signal.sawtooth] and the
    remapping [(ramp + 1) / 2]. *)

Module Float64.
Import PrimFloat FloatOps SpecFloat.
Local Open Scope float_scope.

(** A Python [int] converted to [float64] (exact below [2^53]). *)
Definition of_Z (z : Z) : float :=
  match z with
  | Z0 => 0
  | Zpos _ => of_uint63 (Uint63.of_Z z)
  | Zneg p => - of_uint63 (Uint63.of_Z (Zpos p))
  end.

(** The smallest integer not below a finite float; none for an infinity or
    NaN. *)
Definition ceil (x : float) : option Z :=
  match Prim2SF x with
  | S754_zero _ => Some 0%Z
  | S754_finite s m e =>
      Some match e with
           | Zneg k => if s then (- (Zpos m / 2 ^ Zpos k))%Z
                       else (- ((- Zpos m) / 2 ^ Zpos k))%Z
           | _ => if s then (- (Zpos m * 2 ^ e))%Z else (Zpos m * 2 ^ e)%Z
           end
  | S754_infinity _ | S754_nan => None
  end.

(** [np.arange(stop)]: [ceil(stop)] values; numpy raises [ValueError] when
    the length cannot be computed, which is [None] here. *)
Definition arange (stop : float) : option (list float) :=
  match ceil stop with
  | Some n => Some (map (fun i => of_Z (Z.of_nat i)) (seq 0 (Z.to_nat n)))
  | None => None
  end.

(** C's [fmod(a, b)]: the exact remainder of [a / b] truncated toward
    zero, with the sign of [a]; NaN for an infinite [a] or a zero [b]. *)
Definition fmod (a b : float) : float :=
  match Prim2SF a, Prim2SF b with
  | S754_nan, _ | _, S754_nan => nan
  | S754_infinity _, _ => nan
  | _, S754_zero _ => nan
  | S754_zero _, _ => a
  | S754_finite _ _ _, S754_infinity _ => a
  | S754_finite sa ma ea, S754_finite _ mb eb =>
      let e := Z.min ea eb in
      let A := (Zpos ma * 2 ^ (ea - e))%Z in
      let B := (Zpos mb * 2 ^ (eb - e))%Z in
      let r := Z.ldexp (of_Z (A mod B)) e in
      if sa then - r else r
  end.

(** [np.mod(a, b)] on [float64] (numpy's [npy_divmod]): [fmod], then [b]
    is added when the remainder is not zero and its sign differs from that
    of [b]; a zero remainder takes the sign of [b]. *)
Definition mod_ (a b : float) : float :=
  let m := fmod a b in
  if eqb b 0 then m
  else if is_nan m then m
  else if eqb m 0 then (if ltb b 0 then -0 else 0)
  else if Bool.eqb (ltb b 0) (ltb m 0) then m
  else m + b.

(** [np.pi], the float nearest to pi. *)
Definition pi : float := 0x1.921fb54442d18p+1.

(** [scipy.signal.sawtooth(t)] with its default [width=1], mask by mask:
    [w = width + (t - t)], [t = t + (w - w)], NaN where [w] is outside
    [[0, 1]], the rising ramp where [tmod < w*2*pi], the falling ramp
    elsewhere. *)
Definition sawtooth (t0 : float) : float :=
  let width := 1 in
  let w := width + (t0 - t0) in
  let t := t0 + (w - w) in
  let mask1 := (ltb 1 w || ltb w 0)%bool in
  let tmod := mod_ t (2 * pi) in
  let mask2 := (negb mask1 && ltb tmod (w * 2 * pi))%bool in
  let mask3 := (negb mask1 && negb mask2)%bool in
  if mask3 then (pi * (w + 1) - tmod) / (pi * (1 - w))
  else if mask2 then tmod / (pi * w) - 1
  else if mask1 then nan
  else 0.

(** [self.samp_nums] of [Signal.__init__]. *)
Definition samp_nums (samp_rate : Z) (duration : float) : option (list float) :=
  match arange (duration * of_Z samp_rate) with
  | Some a => Some (map (fun n => n / of_Z samp_rate) a)
  | None => None
  end.

(** [self.data] of a [SawtoothSignal]. *)
Definition sawtooth_data (freq : float) (samp_rate : Z) (duration : float)
  : option (list float) :=
  match samp_nums samp_rate duration with
  | Some ts => Some (map (fun t => (sawtooth (pi * freq * t) + 1) / 2) ts)
  | None => None
  end.

(** [0 <= y <= 1]; false for NaN. *)
Definition in_unit_interval (y : float) : bool := (leb 0 y && leb y 1)%bool.

End Float64.

(** ** simple_signal.py *)

Module SimpleSignal.

(** The four subclasses of the abstract class [Signal]; each overrides
    [gen_data] only. *)
Inductive waveform : Type := Sine | Cosine | Square | Sawtooth.

Record Signal : Type := mkSignal {
  kind : waveform;
  samp_rate : Z;
  duration : R;
  freq : R;
  samp_nums : list R;
  data : list R
}.

(** [gen_data] of [SineSignal], [CosineSignal], [SquareSignal] and
    [SawtoothSignal]; numpy applies the function to each element. *)
Definition gen_data (k : waveform) (freq : R) (samp_nums : list R) : list R :=
  match k with
  | Sine => map (fun t => sin (PI * freq * t)) samp_nums
  | Cosine => map (fun t => cos (PI * freq * t)) samp_nums
  | Square => map (fun t => Scipy.square (PI * freq * t)) samp_nums
  | Sawtooth => map (fun t => (Scipy.sawtooth (PI * freq * t) + 1) / 2) samp_nums
  end.

(** [Signal.__init__(freq, samp_rate, duration)] run in subclass [k]. *)
Definition init (k : waveform) (freq : R) (samp_rate : Z) (duration : R) : Signal :=
  let samp_nums :=
    map (fun n => n / IZR samp_rate) (Np.arange (duration * IZR samp_rate)) in
  {| kind := k;
     samp_rate := samp_rate;
     duration := duration;
     freq := freq;
     samp_nums := samp_nums;
     data := gen_data k freq samp_nums |}.

Definition SineSignal := init Sine.
Definition CosineSignal := init Cosine.
Definition SquareSignal := init Square.
Definition SawtoothSignal := init Sawtooth.

End SimpleSignal.

(** ** Strings: [str.split], [str.join] and [strftime] *)

Module Str.

(** [s.split(sep)] for a one-character separator: the pieces of [s]
    between the occurrences of [sep], always at least one piece. *)
Fixpoint split (sep : ascii) (s : string) : list string :=
  match s with
  | EmptyString => [EmptyString]
  | String c s' =>
      let parts := split sep s' in
      if Ascii.eqb c sep then EmptyString :: parts
      else String c (hd EmptyString parts) :: tl parts
  end.

(** [sep.join(parts)]. *)
Definition join (sep : string) (parts : list string) : string :=
  String.concat sep parts.

(** [c in s]. *)
Fixpoint contains (c : ascii) (s : string) : bool :=
  match s with
  | EmptyString => false
  | String c' s' => Ascii.eqb c' c || contains c s'
  end.

(** A [datetime] value; [datetime] keeps [month] in 1..12, [day] in 1..31,
    [hour] below 24 and [minute], [second] below 60. *)
Record datetime : Type := mkDatetime {
  year : nat;
  month : nat;
  day : nat;
  hour : nat;
  minute : nat;
  second : nat
}.

Definition digit (n : nat) : ascii := ascii_of_nat (48 + n mod 10).

(** A field printed as two decimal digits, zero-padded ([%y] is the year
    without its century; the other fields are below 100). *)
Definition two_digits (n : nat) : string :=
  String (digit (n / 10)) (String (digit n) EmptyString).

(** [t.strftime("%y%m%d-%H%M%S")]. *)
Definition strftime (t : datetime) : string :=
  (two_digits (year t mod 100) ++ two_digits (month t) ++ two_digits (day t)
   ++ "-"
   ++ two_digits (hour t) ++ two_digits (minute t) ++ two_digits (second t))%string.

End Str.

(** ** wav.py *)

Module Wav.
Import Rounding SimpleSignal Str.

(** The four sample types [write] documents. *)
Inductive dtype : Type := UInt8 | Int16 | Int32 | Float32.

Definition dtype_eqb (a b : dtype) : bool :=
  match a, b with
  | UInt8, UInt8 | Int16, Int16 | Int32, Int32 | Float32, Float32 => true
  | _, _ => false
  end.

(** [np.iinfo(dtype).min] and [.max] of the integer types. *)
Definition iinfo (d : dtype) : option (Z * Z) :=
  match d with
  | UInt8 => Some (0, 255)%Z
  | Int16 => Some (-32768, 32767)%Z
  | Int32 => Some (-2147483648, 2147483647)%Z
  | Float32 => None
  end.

(** [np.iinfo(dtype).max if dtype != np.float32 else 1]. *)
Definition max_magnitude (d : dtype) : R :=
  if dtype_eqb d Float32 then 1
  else match iinfo d with
       | Some (_, hi) => IZR hi
       | None => 1
       end.

Inductive exn : Type :=
| ValueError (msg : string)
| OSError (msg : string).

Definition missing_samp_rate : exn := ValueError "Sampling rate is undefined.".
(** What [np.min] ([op = "minimum"]) and [np.max] ([op = "maximum"]) raise
    on an empty array. *)
Definition empty_reduction (op : string) : exn :=
  ValueError ("zero-size array to reduction operation " ++ op
              ++ " which has no identity").

(** One stored sample.  A real outside the range of an integer type has no
    defined conversion to it (the result depends on the platform). *)
Inductive stored : Type :=
| StInt (z : Z)
| StFloat (x : R)
| StUndefined.

(** [x.astype(dtype)] on one element: integer types round toward zero; the
    float type keeps the value (single-precision rounding is outside the
    model). *)
Definition astype (d : dtype) (x : R) : stored :=
  match iinfo d with
  | None => StFloat x
  | Some (lo, hi) =>
      let z := trunc x in
      if ((lo <=? z) && (z <=? hi))%Z then StInt z else StUndefined
  end.

(** The [signal] argument: an array, or an instance of [Signal]. *)
Inductive signal_arg : Type :=
| Array (a : list R)
| SignalObj (s : Signal).

(** *** Programs over the operating system *)

Inductive prog (A : Type) : Type :=
| Ret (a : A)
| Raise (e : exn)
| PathExists (path : string) (k : bool -> prog A)
| MakeDirs (path : string) (k : prog A)
| Now (k : datetime -> prog A)
| WavfileWrite (path : string) (rate : Z) (buf : list stored) (k : prog A).

Arguments Ret {A} a.
Arguments Raise {A} e.
Arguments PathExists {A} path k.
Arguments MakeDirs {A} path k.
Arguments Now {A} k.
Arguments WavfileWrite {A} path rate buf k.

Fixpoint bind {A B : Type} (p : prog A) (f : A -> prog B) : prog B :=
  match p with
  | Ret a => f a
  | Raise e => Raise e
  | PathExists path k => PathExists path (fun b => bind (k b) f)
  | MakeDirs path k => MakeDirs path (bind k f)
  | Now k => Now (fun t => bind (k t) f)
  | WavfileWrite path rate buf k => WavfileWrite path rate buf (bind k f)
  end.

Notation "x <- p ;; q" := (bind p (fun x => q))
  (at level 61, p at next level, right associativity).
Notation "p ;;; q" := (bind p (fun _ => q))
  (at level 61, right associativity).

Definition lift {A : Type} (r : exn + A) : prog A :=
  match r with
  | inl e => Raise e
  | inr a => Ret a
  end.

Definition os_path_exists (path : string) : prog bool := PathExists path Ret.
Definition os_makedirs (path : string) : prog unit := MakeDirs path (Ret tt).
Definition datetime_now : prog datetime := Now Ret.
Definition wavfile_write (path : string) (rate : Z) (buf : list stored) : prog unit :=
  WavfileWrite path rate buf (Ret tt).

(** *** [write], lines 51-81 *)

(** Lines 51-56: the data and the sampling rate, from the [Signal] when one
    is given. *)
Definition resolve (signal : signal_arg) (samp_rate : option Z)
  : list R * option Z :=
  match signal with
  | SignalObj s => (data s, Some (SimpleSignal.samp_rate s))
  | Array a => (a, samp_rate)
  end.

(** Line 63. *)
Definition amplitude (amp_perc : R) (d : dtype) : R :=
  amp_perc * max_magnitude d.

(** Lines 66-70: [out_data] before the cast. *)
Definition out_data (d : dtype) (amplitude : R) (data : list R)
  : exn + list R :=
  if dtype_eqb d UInt8 then
    match Np.min data with
    | None => inl (empty_reduction "minimum")
    | Some lowest =>
        let unsigned_data := map (fun x => x - lowest) data in
        match Np.max unsigned_data with
        | None => inl (empty_reduction "maximum")
        | Some highest =>
            inr (map (fun u => u * amplitude / highest) unsigned_data)
        end
    end
  else
    match Np.max data with
    | None => inl (empty_reduction "maximum")
    | Some highest => inr (map (fun x => x * amplitude / highest) data)
    end.

(** Lines 73-74. *)
Definition raw_filename (filename : string) : string :=
  last (split "/" filename) EmptyString.

Definition folder (filename : string) : string :=
  join "/" (removelast (split "/" filename)).

(** Lines 75-76. *)
Definition create_folder (folder : string) : prog unit :=
  if negb (String.eqb folder "") then
    present <- os_path_exists folder ;;
    if negb present then os_makedirs folder else Ret tt
  else Ret tt.

(** Line 78. *)
Definition timestamp (auto_timestamp : bool) : prog string :=
  if auto_timestamp then
    t <- datetime_now ;; Ret (strftime t ++ "-")%string
  else Ret EmptyString.

(** The f-string of line 81. *)
Definition wav_path (folder timestamp raw_filename : string) : string :=
  (folder ++ "/" ++ timestamp ++ raw_filename ++ ".wav")%string.

Definition write (filename : string) (signal : signal_arg)
    (samp_rate : option Z) (amp_perc : R) (d : dtype) (auto_timestamp : bool)
  : prog unit :=
  let '(data, samp_rate) := resolve signal samp_rate in
  match samp_rate with
  | None => Raise missing_samp_rate
  | Some rate =>
      let amplitude := amplitude amp_perc d in
      out <- lift (out_data d amplitude data) ;;
      let raw := raw_filename filename in
      let dir := folder filename in
      create_folder dir ;;;
      stamp <- timestamp auto_timestamp ;;
      wavfile_write (wav_path dir stamp raw) rate (map (astype d) out)
  end.

(** *** Running a program against an operating system *)

(** What the operating system answers, over its own state [W]:
    [os.makedirs] and [wavfile.write] may fail and may change the state
    either way. *)
Record os (W : Type) : Type := mkOs {
  h_path_exists : string -> W -> bool;
  h_makedirs : string -> W -> option exn * W;
  h_now : W -> datetime;
  h_wavfile_write : string -> Z -> list stored -> W -> option exn * W
}.

Arguments h_path_exists {W} o.
Arguments h_makedirs {W} o.
Arguments h_now {W} o.
Arguments h_wavfile_write {W} o.

(** One call that reached the operating system, with its answer. *)
Inductive event : Type :=
| EvPathExists (path : string) (answer : bool)
| EvMakeDirs (path : string) (failure : option exn)
| EvNow (t : datetime)
| EvWavfileWrite (path : string) (rate : Z) (buf : list stored)
    (failure : option exn).

Record outcome (W A : Type) : Type := mkOutcome {
  result : exn + A;
  final : W;
  trace : list event
}.

Arguments mkOutcome {W A} result final trace.
Arguments result {W A} o.
Arguments final {W A} o.
Arguments trace {W A} o.

Definition logged {W A : Type} (e : event) (o : outcome W A) : outcome W A :=
  mkOutcome (result o) (final o) (e :: trace o).

Fixpoint run {W A : Type} (h : os W) (p : prog A) (w : W) : outcome W A :=
  match p with
  | Ret a => mkOutcome (inr a) w []
  | Raise e => mkOutcome (inl e) w []
  | PathExists path k =>
      let b := h_path_exists h path w in
      logged (EvPathExists path b) (run h (k b) w)
  | MakeDirs path k =>
      match h_makedirs h path w with
      | (Some e, w') => mkOutcome (inl e) w' [EvMakeDirs path (Some e)]
      | (None, w') => logged (EvMakeDirs path None) (run h k w')
      end
  | Now k =>
      let t := h_now h w in
      logged (EvNow t) (run h (k t) w)
  | WavfileWrite path rate buf k =>
      match h_wavfile_write h path rate buf w with
      | (Some e, w') => mkOutcome (inl e) w' [EvWavfileWrite path rate buf (Some e)]
      | (None, w') => logged (EvWavfileWrite path rate buf None) (run h k w')
      end
  end.

End Wav.

(** ** Observing a run *)

Module Observe.
Import Wav.

(** The [(path, rate, buffer)] of every [wavfile.write] call of a trace
    that did not fail. *)
Fixpoint written (tr : list event) : list (string * Z * list stored) :=
  match tr with
  | [] => []
  | EvWavfileWrite path rate buf None :: tr' => (path, rate, buf) :: written tr'
  | _ :: tr' => written tr'
  end.

(** The event asks about, or creates, a directory. *)
Definition concerns_folder (e : event) : bool :=
  match e with
  | EvPathExists _ _ | EvMakeDirs _ _ => true
  | EvNow _ | EvWavfileWrite _ _ _ _ => false
  end.

(** The buffer [write] passes to [wavfile.write] for the array [data]:
    [out_data.astype(dtype)]. *)
Definition cast_buffer (d : dtype) (amp_perc : R) (data : list R)
  : exn + list stored :=
  match out_data d (amplitude amp_perc d) data with
  | inl e => inl e
  | inr out => inr (map (astype d) out)
  end.

(** Lines 73-81 of [write], the part after the normalisation, for a
    sampling rate and a buffer already at hand. *)
Definition emit (filename : string) (rate : Z) (buf : list stored)
    (auto_timestamp : bool) : prog unit :=
  create_folder (folder filename) ;;;
  stamp <- timestamp auto_timestamp ;;
  wavfile_write (wav_path (folder filename) stamp (raw_filename filename))
                rate buf.

(** The event is a [wavfile.write] call with this rate and this buffer, or
    is not a [wavfile.write] call. *)
Definition writes_only (rate : Z) (buf : exn + list stored) (e : event) : Prop :=
  match e with
  | EvWavfileWrite _ rate' buf' _ => rate' = rate /\ buf = inr buf'
  | _ => True
  end.

End Observe.

(** ** An operating system in memory

    Directories are a list of paths, files a list of written [.wav]
    contents, newest first; no call fails. *)

Module MemOs.
Import Wav.

Record state : Type := mkState {
  dirs : list string;
  files : list (string * (Z * list stored));
  clock : Str.datetime
}.

Definition handlers : os state :=
  {| h_path_exists := fun path w => existsb (String.eqb path) (dirs w);
     h_makedirs := fun path w =>
       (None, mkState (path :: dirs w) (files w) (clock w));
     h_now := fun w => clock w;
     h_wavfile_write := fun path rate buf w =>
       (None, mkState (dirs w) ((path, (rate, buf)) :: files w) (clock w)) |}.

(** A disk that refuses every change: [os.makedirs] and [wavfile.write]
    raise [OSError] and leave the state as it is. *)
Definition read_only : os state :=
  {| h_path_exists := fun path w => existsb (String.eqb path) (dirs w);
     h_makedirs := fun path w => (Some (OSError "Read-only file system"), w);
     h_now := fun w => clock w;
     h_wavfile_write := fun path rate buf w =>
       (Some (OSError "Read-only file system"), w) |}.

(** An empty disk on 3 November 2026, 09:05:07. *)
Definition fresh : state :=
  mkState [] [] (Str.mkDatetime 2026 11 3 9 5 7).

End MemOs.

(** * Properties *)

(** ** Rounding *)

Module RoundingFacts.
Import Rounding.

Lemma floor_bounds (x : R) : IZR (floor x) <= x < IZR (floor x) + 1.
Proof.
  unfold floor. destruct (base_Int_part x) as [H1 H2]. lra.
Qed.

Lemma floor_unique (x : R) (z : Z) :
  IZR z <= x < IZR z + 1 -> floor x = z.
Proof.
  intros [H1 H2]. destruct (floor_bounds x) as [F1 F2].
  assert (L1 : (floor x < z + 1)%Z).
  { apply lt_IZR. rewrite plus_IZR. simpl. lra. }
  assert (L2 : (z < floor x + 1)%Z).
  { apply lt_IZR. rewrite plus_IZR. simpl. lra. }
  lia.
Qed.

Lemma ceil_bounds (x : R) : IZR (ceil x) - 1 < x <= IZR (ceil x).
Proof.
  unfold ceil. rewrite opp_IZR.
  destruct (floor_bounds (- x)) as [F1 F2]. lra.
Qed.

Lemma ceil_unique (x : R) (z : Z) :
  IZR z - 1 < x <= IZR z -> ceil x = z.
Proof.
  intros [H1 H2]. unfold ceil.
  rewrite (floor_unique (- x) (- z)%Z); [lia|].
  rewrite opp_IZR. lra.
Qed.

Lemma floor_IZR (z : Z) : floor (IZR z) = z.
Proof. apply floor_unique. lra. Qed.

Lemma ceil_IZR (z : Z) : ceil (IZR z) = z.
Proof. apply ceil_unique. lra. Qed.

Lemma floor_le_ceil (x : R) : (floor x <= ceil x)%Z.
Proof.
  destruct (floor_bounds x) as [F1 _], (ceil_bounds x) as [_ C2].
  apply le_IZR. lra.
Qed.

(** Off the integers the two roundings differ by exactly one. *)
Lemma ceil_floor_succ (x : R) :
  IZR (floor x) <> x -> ceil x = (floor x + 1)%Z.
Proof.
  intros Hne. destruct (floor_bounds x) as [F1 F2].
  apply ceil_unique. rewrite plus_IZR. simpl. lra.
Qed.

Lemma trunc_nonneg (x : R) (z : Z) :
  0 <= x -> IZR z <= x < IZR z + 1 -> trunc x = z.
Proof.
  intros Hx Hz. unfold trunc.
  destruct (Rle_dec 0 x); [|contradiction].
  now apply floor_unique.
Qed.

(** The exact gap between the two roundings. *)
Lemma ceil_floor_gap (x : R) :
  ceil x = (floor x + (if Req_dec_T (IZR (floor x)) x then 0 else 1))%Z.
Proof.
  destruct (Req_dec_T (IZR (floor x)) x) as [E | N].
  - rewrite <- E at 1. rewrite ceil_IZR. lia.
  - now apply ceil_floor_succ.
Qed.

End RoundingFacts.

(** ** numpy and scipy *)

Module NpFacts.
Import Rounding RoundingFacts.

Lemma nth_error_seq_ltb (a n i : nat) :
  nth_error (seq a n) i = if (i <? n)%nat then Some (a + i)%nat else None.
Proof.
  revert a i. induction n as [| n IH]; intros a i; simpl.
  - now destruct i.
  - destruct i as [| i]; simpl.
    + f_equal. lia.
    + rewrite IH. change (S i <? S n)%nat with (i <? n)%nat.
      destruct (i <? n)%nat; [f_equal; lia | reflexivity].
Qed.

Lemma arange_length (stop : R) : List.length (Np.arange stop) = Np.arange_len stop.
Proof. unfold Np.arange. now rewrite length_map, length_seq. Qed.

Lemma arange_nth_error (stop : R) (i : nat) :
  nth_error (Np.arange stop) i =
  if (i <? Np.arange_len stop)%nat then Some (INR i) else None.
Proof.
  unfold Np.arange. rewrite nth_error_map, nth_error_seq_ltb.
  now destruct (i <? Np.arange_len stop)%nat.
Qed.

(** The remainder of a non-negative number by a positive divisor lies in
    [[0, y)]. *)
Lemma mod_bounds (x y : R) : 0 <= x -> 0 < y -> 0 <= Np.mod_ x y < y.
Proof.
  intros _ Hy. unfold Np.mod_.
  destruct (floor_bounds (x / y)) as [F1 F2].
  assert (E : x = x / y * y) by (field; lra).
  split.
  - assert (IZR (floor (x / y)) * y <= x / y * y)
      by (apply Rmult_le_compat_r; lra).
    lra.
  - assert (x / y * y < (IZR (floor (x / y)) + 1) * y)
      by (apply Rmult_lt_compat_r; lra).
    lra.
Qed.

(** On a non-negative phase the sawtooth is on its rising ramp. *)
Lemma sawtooth_rising (t : R) :
  0 <= t -> Scipy.sawtooth t = Np.mod_ t (2 * PI) / PI - 1.
Proof.
  intros Ht. unfold Scipy.sawtooth, Scipy.sawtooth_width.
  assert (HPI := PI_RGT_0).
  destruct (mod_bounds t (2 * PI)) as [M1 M2]; [exact Ht | lra |].
  destruct (Rlt_dec (Np.mod_ t (2 * PI)) (1 * 2 * PI)) as [_ | N]; [|lra].
  now rewrite Rmult_1_r.
Qed.

Lemma sawtooth_range (t : R) : 0 <= t -> -1 <= Scipy.sawtooth t < 1.
Proof.
  intros Ht. rewrite sawtooth_rising by exact Ht.
  assert (HPI := PI_RGT_0).
  destruct (mod_bounds t (2 * PI)) as [M1 M2]; [exact Ht | lra |].
  assert (0 <= Np.mod_ t (2 * PI) / PI).
  { apply Rmult_le_pos; [lra|]. left. now apply Rinv_0_lt_compat. }
  assert (Np.mod_ t (2 * PI) / PI < 2).
  { apply Rmult_lt_reg_r with PI; [lra|].
    replace (Np.mod_ t (2 * PI) / PI * PI) with (Np.mod_ t (2 * PI))
      by (field; lra).
    lra. }
  lra.
Qed.

End NpFacts.

(** ** simple_signal.py *)

Module SignalFacts.
Import Rounding RoundingFacts NpFacts SimpleSignal.

Lemma gen_data_length (k : waveform) (f : R) (ts : list R) :
  List.length (gen_data k f ts) = List.length ts.
Proof. destruct k; simpl; apply length_map. Qed.

Lemma samp_nums_length (k : waveform) (f : R) (sr : Z) (d : R) :
  List.length (samp_nums (init k f sr d)) = Np.arange_len (d * IZR sr).
Proof. simpl. now rewrite length_map, arange_length. Qed.

Lemma samp_nums_nth_error (k : waveform) (f : R) (sr : Z) (d : R) (i : nat) :
  nth_error (samp_nums (init k f sr d)) i =
  if (i <? Np.arange_len (d * IZR sr))%nat then Some (INR i / IZR sr) else None.
Proof.
  simpl. rewrite nth_error_map, arange_nth_error.
  now destruct (i <? Np.arange_len (d * IZR sr))%nat.
Qed.

(** C1, as stated, fails: a duration of 2.5 s at 1 sample per second gives
    three samples (the indices 0, 1 and 2 lie below 2.5), while the floor of
    2.5 is 2. *)
Lemma samples_length_not_floor :
  0 < 440 /\ (0 < 1)%Z /\ 0 < 5 / 2 /\
  List.length (data (SineSignal 440 1 (5 / 2))) = 3%nat /\
  Z.to_nat (floor (5 / 2 * IZR 1)) = 2%nat /\
  List.length (data (SineSignal 440 1 (5 / 2)))
    <> Z.to_nat (floor (5 / 2 * IZR 1)).
Proof.
  assert (L : List.length (data (SineSignal 440 1 (5 / 2))) = 3%nat).
  { unfold SineSignal, init. cbn [data].
    rewrite gen_data_length, length_map, arange_length.
    unfold Np.arange_len. rewrite (ceil_unique _ 3%Z); [reflexivity | lra]. }
  assert (F : Z.to_nat (floor (5 / 2 * IZR 1)) = 2%nat).
  { rewrite (floor_unique _ 2%Z); [reflexivity | lra]. }
  repeat split; try lra; try lia; try assumption.
Qed.

(** C1, amended: for each of the four waveforms the sample sequence (and
    the sequence of sample times) has [ceil(duration * samp_rate)] elements,
    none when that is not positive; the ceiling is the floor when
    [duration * samp_rate] is an integer and the floor plus one otherwise. *)
Theorem samples_length (k : waveform) (f : R) (sr : Z) (d : R) :
  List.length (data (init k f sr d)) = Z.to_nat (ceil (d * IZR sr)) /\
  List.length (samp_nums (init k f sr d)) = Z.to_nat (ceil (d * IZR sr)) /\
  ceil (d * IZR sr) =
    (floor (d * IZR sr)
     + (if Req_dec_T (IZR (floor (d * IZR sr))) (d * IZR sr) then 0 else 1))%Z.
Proof.
  repeat split.
  - unfold init. cbn [data].
    now rewrite gen_data_length, length_map, arange_length.
  - apply samp_nums_length.
  - apply ceil_floor_gap.
Qed.

(** C5: in a sine (cosine) signal the sample time at index [i] is
    [i / samp_rate] and the sample is [sin(pi * freq * (i / samp_rate))]
    ([cos] of the same), for every index [i] below the number of samples;
    there is nothing at or past that number. *)
Theorem sine_cosine_samples (f : R) (sr : Z) (d : R) (i : nat) :
  let n := List.length (Np.arange (d * IZR sr)) in
  nth_error (samp_nums (SineSignal f sr d)) i =
    (if (i <? n)%nat then Some (INR i / IZR sr) else None) /\
  nth_error (samp_nums (CosineSignal f sr d)) i =
    (if (i <? n)%nat then Some (INR i / IZR sr) else None) /\
  nth_error (data (SineSignal f sr d)) i =
    (if (i <? n)%nat then Some (sin (PI * f * (INR i / IZR sr))) else None) /\
  nth_error (data (CosineSignal f sr d)) i =
    (if (i <? n)%nat then Some (cos (PI * f * (INR i / IZR sr))) else None).
Proof.
  intros n. subst n. rewrite arange_length.
  unfold SineSignal, CosineSignal. repeat split.
  - apply samp_nums_nth_error.
  - apply samp_nums_nth_error.
  - change (data (init Sine f sr d))
      with (map (fun t => sin (PI * f * t)) (samp_nums (init Sine f sr d))).
    rewrite nth_error_map, samp_nums_nth_error.
    now destruct (i <? Np.arange_len (d * IZR sr))%nat.
  - change (data (init Cosine f sr d))
      with (map (fun t => cos (PI * f * t)) (samp_nums (init Cosine f sr d))).
    rewrite nth_error_map, samp_nums_nth_error.
    now destruct (i <? Np.arange_len (d * IZR sr))%nat.
Qed.

(** The sample times of a signal with a positive sampling rate start at 0
    and stay below the duration. *)
Lemma samp_nums_range (k : waveform) (f : R) (sr : Z) (d : R) :
  (0 < sr)%Z ->
  Forall (fun t => 0 <= t < d) (samp_nums (init k f sr d)).
Proof.
  intros Hsr. apply IZR_lt in Hsr.
  assert (Hinv : 0 < / IZR sr) by now apply Rinv_0_lt_compat.
  apply Forall_forall. intros t Ht. cbn [samp_nums init] in Ht.
  apply in_map_iff in Ht. destruct Ht as [n [<- Hn]].
  unfold Np.arange in Hn. apply in_map_iff in Hn.
  destruct Hn as [i [<- Hi]]. apply in_seq in Hi.
  unfold Np.arange_len in Hi.
  destruct (ceil_bounds (d * IZR sr)) as [C1 _].
  assert (Hlt : INR i < d * IZR sr).
  { assert (L : (Z.of_nat i <= ceil (d * IZR sr) - 1)%Z) by lia.
    apply IZR_le in L. rewrite minus_IZR, <- INR_IZR_INZ in L. lra. }
  split.
  - apply Rmult_le_pos; [apply pos_INR | lra].
  - apply Rmult_lt_reg_r with (IZR sr); [lra|].
    replace (INR i / IZR sr * IZR sr) with (INR i) by (field; lra).
    exact Hlt.
Qed.

(** C8, amended: for a frequency that is not negative, a positive sampling
    rate, and [pi * freq] and [pi * freq * duration] at most half the
    largest [float64] (so that no rounding reaches infinity), every phase
    [pi * freq * t] lies in [[0, float64_max / 2]] (where [np.mod] is the
    exact remainder), the ramp lies in [[-1, 1]] and every sample
    [(ramp + 1) / 2] lies in [[0, 1]]. *)
Theorem sawtooth_in_unit_interval_on_float_range (f : R) (sr : Z) (d : R) :
  0 <= f -> (0 < sr)%Z ->
  PI * f <= Np.float64_max / 2 -> PI * f * d <= Np.float64_max / 2 ->
  Forall (fun t => 0 <= PI * f * t <= Np.float64_max / 2)
         (samp_nums (SawtoothSignal f sr d)) /\
  Forall (fun y => 0 <= y <= 1) (data (SawtoothSignal f sr d)) /\
  Forall2 (fun t y => exists ramp, ramp = Scipy.sawtooth (PI * f * t) /\
                                   -1 <= ramp <= 1 /\ y = (ramp + 1) / 2)
          (samp_nums (SawtoothSignal f sr d)) (data (SawtoothSignal f sr d)).
Proof.
  intros Hf Hsr Hpf Hpfd.
  assert (HPI := PI_RGT_0).
  assert (Hpos : 0 <= PI * f) by (apply Rmult_le_pos; lra).
  assert (Hphase : Forall (fun t => 0 <= PI * f * t <= Np.float64_max / 2)
                          (samp_nums (SawtoothSignal f sr d))).
  { pose proof (samp_nums_range Sawtooth f sr d Hsr) as Hts.
    apply Forall_forall. intros t Ht.
    destruct (proj1 (Forall_forall _ _) Hts t Ht) as [T1 T2].
    split; [apply Rmult_le_pos; lra|].
    apply Rle_trans with (PI * f * d); [|exact Hpfd].
    apply Rmult_le_compat_l; lra. }
  split; [exact Hphase|].
  unfold SawtoothSignal, init in *. cbn [data samp_nums gen_data] in *.
  revert Hphase.
  generalize (map (fun n : R => n / IZR sr) (Np.arange (d * IZR sr))).
  intros ts Hphase. split.
  - apply Forall_forall. intros y Hy. apply in_map_iff in Hy.
    destruct Hy as [t [<- Ht]].
    destruct (proj1 (Forall_forall _ _) Hphase t Ht) as [P1 _].
    destruct (sawtooth_range (PI * f * t) P1). lra.
  - induction ts as [| t ts IH]; simpl; constructor.
    + inversion Hphase as [| ? ? [P1 _] _]; subst.
      exists (Scipy.sawtooth (PI * f * t)).
      destruct (sawtooth_range (PI * f * t) P1). repeat split; lra.
    + apply IH. now inversion Hphase.
Qed.

(** Half a second of a 440 Hz sawtooth at 8 samples per second. *)
Lemma sawtooth_in_unit_interval_on_float_range_witness :
  Forall (fun t => 0 <= PI * 440 * t <= Np.float64_max / 2)
         (samp_nums (SawtoothSignal 440 8 (1 / 2))) /\
  Forall (fun y => 0 <= y <= 1) (data (SawtoothSignal 440 8 (1 / 2))) /\
  Forall2 (fun t y => exists ramp, ramp = Scipy.sawtooth (PI * 440 * t) /\
                                   -1 <= ramp <= 1 /\ y = (ramp + 1) / 2)
          (samp_nums (SawtoothSignal 440 8 (1 / 2)))
          (data (SawtoothSignal 440 8 (1 / 2))).
Proof.
  assert (H4 := PI_4).
  assert (Hmax : 2 * 1760 <= Np.float64_max).
  { unfold Np.float64_max. replace (2 * 1760) with (IZR 3520) by lra.
    apply IZR_le. vm_compute. discriminate. }
  apply (sawtooth_in_unit_interval_on_float_range 440 8 (1 / 2)).
  - lra.
  - lia.
  - lra.
  - lra.
Defined.

End SignalFacts.

(** ** The sawtooth in binary64 *)

Module Float64Facts.
Import PrimFloat.
Local Open Scope float_scope.

(** C8, as stated, fails: at the frequency [-0x1.79ca10c924223p-67] (the
    [float64] nearest to -1e-20), 4 samples per second and 1 second, the
    phases after the first are tiny and negative, [np.mod] returns [2*pi]
    itself, the falling ramp divides 0 by 0, and three of the four samples
    are NaN, which is not in [[0, 1]].  At the frequency
    [0x1.1ccf385ebc8a0p+1023] (nearest to 1e308) [pi * freq] overflows and
    all four samples are NaN. *)
Lemma sawtooth_nan_on_negative_phase :
  Float64.sawtooth_data (-0x1.79ca10c924223p-67) 4 1
    = Some [0; nan; nan; nan] /\
  Float64.mod_ (Float64.pi * -0x1.79ca10c924223p-67 * 0.25) (2 * Float64.pi)
    = 2 * Float64.pi /\
  Float64.sawtooth_data 0x1.1ccf385ebc8a0p+1023 4 1
    = Some [nan; nan; nan; nan] /\
  forallb Float64.in_unit_interval [0; nan; nan; nan] = false /\
  ~ (forall freq samp_rate duration samples,
       Float64.sawtooth_data freq samp_rate duration = Some samples ->
       forallb Float64.in_unit_interval samples = true).
Proof.
  assert (E : Float64.sawtooth_data (-0x1.79ca10c924223p-67) 4 1
              = Some [0; nan; nan; nan]) by (vm_compute; reflexivity).
  split; [exact E|]. split; [vm_compute; reflexivity|].
  split; [vm_compute; reflexivity|].
  split; [vm_compute; reflexivity|].
  intros H. specialize (H _ _ _ _ E). vm_compute in H. discriminate H.
Qed.

(** On positive parameters the binary64 samples are in [[0, 1]]: a 440 Hz
    sawtooth at 8000 samples per second, for a twentieth of a second. *)
Lemma sawtooth_data_in_range_example :
  option_map (fun samples => (List.length samples,
                              forallb Float64.in_unit_interval samples))
             (Float64.sawtooth_data 440 8000 0x1.999999999999ap-5)
  = Some (400%nat, true).
Proof. vm_compute. reflexivity. Qed.

End Float64Facts.

(** ** Strings *)

Module StrFacts.
Import Str.
Local Open Scope string_scope.

Lemma split_nonempty (sep : ascii) (s : string) : split sep s <> [].
Proof.
  destruct s as [| c s]; simpl; [discriminate|].
  destruct (Ascii.eqb c sep); discriminate.
Qed.

Lemma split_without_sep (sep : ascii) (s : string) :
  contains sep s = false -> split sep s = [s].
Proof.
  induction s as [| c s IH]; simpl; [reflexivity|].
  intros H. apply orb_false_iff in H. destruct H as [Hc Hs].
  rewrite Hc, (IH Hs). reflexivity.
Qed.

(** Splitting distributes over an occurrence of the separator. *)
Lemma split_at_sep (sep : ascii) (a b : string) :
  split sep (a ++ String sep b) = (split sep a ++ split sep b)%list.
Proof.
  induction a as [| c a IH]; simpl.
  - now rewrite Ascii.eqb_refl.
  - rewrite IH. destruct (Ascii.eqb c sep); [reflexivity|].
    pose proof (split_nonempty sep a) as Hne.
    destruct (split sep a) as [| h t]; [contradiction | reflexivity].
Qed.

(** Joining the pieces gives the string back. *)
Lemma join_split (sep : ascii) (s : string) :
  join (String sep "") (split sep s) = s.
Proof.
  unfold join. induction s as [| c s IH]; simpl; [reflexivity|].
  pose proof (split_nonempty sep s) as Hne.
  destruct (Ascii.eqb c sep) eqn:E.
  - apply Ascii.eqb_eq in E. subst c.
    destruct (split sep s) as [| h t]; [contradiction|].
    simpl in *. now rewrite IH.
  - destruct (split sep s) as [| h t]; [contradiction|].
    destruct t as [| h' t]; simpl in *; now rewrite IH.
Qed.

Lemma two_digits_length (n : nat) : String.length (two_digits n) = 2%nat.
Proof. reflexivity. Qed.

Lemma strftime_length (t : datetime) : String.length (strftime t) = 13%nat.
Proof. reflexivity. Qed.

Lemma length_append (a b : string) :
  String.length (a ++ b) = (String.length a + String.length b)%nat.
Proof. induction a as [| c a IH]; simpl; [reflexivity | now rewrite IH]. Qed.

End StrFacts.

(** ** wav.py *)

Module WavFacts.
Import Rounding RoundingFacts SimpleSignal Str StrFacts Wav Observe.

(** [write] is the check of the sampling rate, the normalisation and cast,
    and then lines 73-81. *)
Lemma write_unfold (filename : string) (signal : signal_arg)
    (samp_rate : option Z) (amp_perc : R) (d : dtype) (auto_timestamp : bool) :
  write filename signal samp_rate amp_perc d auto_timestamp =
  match snd (resolve signal samp_rate) with
  | None => Raise missing_samp_rate
  | Some rate =>
      match cast_buffer d amp_perc (fst (resolve signal samp_rate)) with
      | inl e => Raise e
      | inr buf => emit filename rate buf auto_timestamp
      end
  end.
Proof.
  unfold write, cast_buffer, emit.
  destruct (resolve signal samp_rate) as [data [rate |]]; simpl; [|reflexivity].
  destruct (out_data d (amplitude amp_perc d) data); reflexivity.
Qed.

(** *** Normalisation *)

Lemma max_magnitude_values :
  max_magnitude UInt8 = 255 /\ max_magnitude Int16 = 32767 /\
  max_magnitude Int32 = 2147483647 /\ max_magnitude Float32 = 1.
Proof. repeat split. Qed.

Lemma Rmax_shift (a x c : R) : Rmax (a - c) (x - c) = Rmax a x - c.
Proof.
  unfold Rmax. destruct (Rle_dec (a - c) (x - c)), (Rle_dec a x); lra.
Qed.

Lemma fold_max_shift (c : R) (l : list R) (a : R) :
  fold_left Rmax (map (fun x => x - c) l) (a - c) = fold_left Rmax l a - c.
Proof.
  revert a. induction l as [| x l IH]; intros a; simpl; [reflexivity|].
  now rewrite Rmax_shift, IH.
Qed.

(** Shifting an array shifts its maximum. *)
Lemma max_shift (c : R) (data : list R) :
  Np.max (map (fun x => x - c) data) =
  option_map (fun m => m - c) (Np.max data).
Proof.
  destruct data as [| a l]; simpl; [reflexivity|].
  now rewrite fold_max_shift.
Qed.

Lemma min_max_same_shape (data : list R) :
  Np.min data = None <-> Np.max data = None.
Proof. destruct data; simpl; split; intros; congruence. Qed.

(** The cast of a non-negative real to an integer type that holds its
    integer part. *)
Lemma astype_int (d : dtype) (lo hi : Z) (x : R) (z : Z) :
  iinfo d = Some (lo, hi) -> 0 <= x -> IZR z <= x < IZR z + 1 ->
  (lo <= z <= hi)%Z -> astype d x = StInt z.
Proof.
  intros Hd Hx Hz [Hlo Hhi]. unfold astype. rewrite Hd.
  rewrite (trunc_nonneg x z Hx Hz).
  apply Z.leb_le in Hlo. apply Z.leb_le in Hhi. now rewrite Hlo, Hhi.
Qed.

(** C2: for the signed 16-bit, signed 32-bit and float targets the output
    before the cast is [data * (amp_perc * max_magnitude) / max(data)], with
    [max_magnitude] 32767, 2147483647 and 1; an empty array has no maximum
    and the reduction raises.  The divisor is the maximum, not the largest
    absolute value: [-4, 2] scales to [-65534, 32767] for 16 bits. *)
Theorem direct_scaling (amp_perc : R) (data : list R) :
  let scaled (ceiling : R) : exn + list R :=
    match Np.max data with
    | None => inl (empty_reduction "maximum")
    | Some highest => inr (map (fun x => x * ceiling / highest) data)
    end in
  out_data Int16 (amplitude amp_perc Int16) data = scaled (amp_perc * 32767) /\
  out_data Int32 (amplitude amp_perc Int32) data = scaled (amp_perc * 2147483647) /\
  out_data Float32 (amplitude amp_perc Float32) data = scaled (amp_perc * 1) /\
  out_data Int16 (amplitude 1 Int16) [-4; 2] = inr [-65534; 32767].
Proof.
  repeat split.
  unfold out_data, amplitude, max_magnitude, Np.max.
  cbn [dtype_eqb iinfo fold_left map].
  rewrite (Rmax_right (-4) 2) by lra.
  repeat f_equal; lra.
Qed.

(** [-2, 0, 2] at full amplitude: [0, 127.5, 255] before the cast,
    [0, 127, 255] after it. *)
Lemma uint8_example_buffer :
  cast_buffer UInt8 1 [-2; 0; 2] = inr (map StInt [0; 127; 255]%Z).
Proof.
  unfold cast_buffer, out_data, amplitude, max_magnitude, Np.max, Np.min.
  cbn [dtype_eqb iinfo fold_left map].
  rewrite (Rmin_left (-2) 0) by lra. rewrite (Rmin_left (-2) 2) by lra.
  rewrite (Rmax_right (-2 - -2) (0 - -2)) by lra.
  rewrite (Rmax_right (0 - -2) (2 - -2)) by lra.
  f_equal.
  rewrite (astype_int UInt8 0 255 _ 0) by (try reflexivity; try lra; lia).
  rewrite (astype_int UInt8 0 255 _ 127) by (try reflexivity; try lra; lia).
  rewrite (astype_int UInt8 0 255 _ 255) by (try reflexivity; try lra; lia).
  reflexivity.
Qed.

(** C3: for the unsigned 8-bit target the output before the cast is
    [(data - min(data)) * ceiling / max(data - min(data))] with
    [ceiling = amp_perc * 255], that is
    [(x - min) * ceiling / (max - min)] for each sample [x]; the array
    [-2, 0, 2] at [amp_perc = 1] is cast to [0, 127, 255], whose largest
    value is 255 and smallest 0, and that is the buffer a run of [write]
    hands to [wavfile.write]. *)
Theorem unsigned_shift_then_scale (amp_perc : R) (data : list R) :
  out_data UInt8 (amplitude amp_perc UInt8) data =
    match Np.min data with
    | None => inl (empty_reduction "minimum")
    | Some lowest =>
        let shifted := map (fun x => x - lowest) data in
        match Np.max shifted with
        | None => inl (empty_reduction "maximum")
        | Some highest =>
            inr (map (fun u => u * (amp_perc * 255) / highest) shifted)
        end
    end /\
  out_data UInt8 (amplitude amp_perc UInt8) data =
    match Np.min data, Np.max data with
    | Some lowest, Some highest =>
        inr (map (fun x => (x - lowest) * (amp_perc * 255) / (highest - lowest))
                 data)
    | _, _ => inl (empty_reduction "minimum")
    end /\
  cast_buffer UInt8 1 [-2; 0; 2] = inr (map StInt [0; 127; 255]%Z) /\
  written (trace (run MemOs.handlers
                      (write "tone" (Array [-2; 0; 2]) (Some 8000%Z) 1 UInt8 false)
                      MemOs.fresh))
    = [("/tone.wav"%string, 8000%Z, map StInt [0; 127; 255]%Z)] /\
  fold_right Z.max 0%Z [0; 127; 255]%Z = 255%Z /\
  fold_right Z.min 255%Z [0; 127; 255]%Z = 0%Z.
Proof.
  split; [reflexivity|].
  split; [|split; [apply uint8_example_buffer | split; [|split; reflexivity]]].
  - unfold out_data, amplitude. simpl dtype_eqb. cbv iota.
    destruct (Np.min data) as [lowest |] eqn:Emin.
    + rewrite max_shift.
      destruct (Np.max data) as [highest |] eqn:Emax; simpl.
      * now rewrite map_map.
      * apply min_max_same_shape in Emax. congruence.
    + reflexivity.
  - rewrite write_unfold. cbn [resolve fst snd].
    rewrite uint8_example_buffer. reflexivity.
Qed.



(** *** Files and folders *)

Local Open Scope string_scope.

Ltac os_cases h :=
  repeat match goal with
  | |- context [h_path_exists h ?p ?w0] =>
      destruct (h_path_exists h p w0) eqn:?; cbn -[strftime folder raw_filename wav_path]
  | |- context [h_makedirs h ?p ?w0] =>
      destruct (h_makedirs h p w0) as [[?|] ?] eqn:?; cbn -[strftime folder raw_filename wav_path]
  | |- context [h_wavfile_write h ?p ?r ?b ?w0] =>
      destruct (h_wavfile_write h p r b w0) as [[?|] ?] eqn:?; cbn -[strftime folder raw_filename wav_path]
  end.

(** What a successful run of lines 73-81 did: one [.wav] file, at the path
    built from the folder, the time stamp and the raw file name. *)
Lemma run_emit_success {W : Type} (h : os W) (w : W) (filename : string)
    (rate : Z) (buf : list stored) (auto_timestamp : bool) :
  result (run h (emit filename rate buf auto_timestamp) w) = inr tt ->
  exists stamp,
    written (trace (run h (emit filename rate buf auto_timestamp) w)) =
      [(wav_path (folder filename) stamp (raw_filename filename), rate, buf)] /\
    (if auto_timestamp
     then exists t, In (EvNow t) (trace (run h (emit filename rate buf auto_timestamp) w))
                    /\ stamp = strftime t ++ "-"
     else stamp = "").
Proof.
  unfold emit, create_folder.
  destruct (negb (folder filename =? "")); destruct auto_timestamp;
    cbn -[strftime folder raw_filename wav_path];
    os_cases h; intros H; try discriminate H;
    eexists; (split; [reflexivity|]); eauto 8 using in_eq, in_cons.
Qed.

(** The remaining runs of lines 73-81: every [wavfile.write] call carries
    the rate and the buffer handed in. *)
Lemma run_emit_writes {W : Type} (h : os W) (w : W) (filename : string)
    (rate : Z) (buf : list stored) (auto_timestamp : bool) :
  Forall (writes_only rate (inr buf))
         (trace (run h (emit filename rate buf auto_timestamp) w)).
Proof.
  unfold emit, create_folder.
  destruct (negb (folder filename =? "")); destruct auto_timestamp;
    cbn -[strftime folder raw_filename wav_path];
    os_cases h; repeat constructor.
Qed.

(** Without a folder no call asks about, or creates, a directory. *)
Lemma run_emit_no_folder {W : Type} (h : os W) (w : W) (filename : string)
    (rate : Z) (buf : list stored) (auto_timestamp : bool) :
  folder filename = "" ->
  forallb (fun e => negb (concerns_folder e))
          (trace (run h (emit filename rate buf auto_timestamp) w)) = true.
Proof.
  intros E. unfold emit, create_folder. rewrite E.
  destruct auto_timestamp;
    cbn -[strftime folder raw_filename wav_path];
    os_cases h; reflexivity.
Qed.

(** If no operating-system call fails, lines 73-81 succeed. *)
Lemma run_emit_succeeds {W : Type} (h : os W) (w : W) (filename : string)
    (rate : Z) (buf : list stored) (auto_timestamp : bool) :
  (forall path w0, fst (h_makedirs h path w0) = None) ->
  (forall path r b w0, fst (h_wavfile_write h path r b w0) = None) ->
  result (run h (emit filename rate buf auto_timestamp) w) = inr tt.
Proof.
  intros Hmk Hwr. unfold emit, create_folder.
  destruct (negb (folder filename =? "")); destruct auto_timestamp;
    cbn -[strftime folder raw_filename wav_path];
    repeat match goal with
    | |- context [h_path_exists h ?p ?w0] =>
        destruct (h_path_exists h p w0);
        cbn -[strftime folder raw_filename wav_path]
    | |- context [h_makedirs h ?p ?w0] =>
        let E := fresh "E" in
        pose proof (Hmk p w0) as E;
        destruct (h_makedirs h p w0) as [[?|] ?];
        [discriminate E | clear E];
        cbn -[strftime folder raw_filename wav_path]
    | |- context [h_wavfile_write h ?p ?r ?b ?w0] =>
        let E := fresh "E" in
        pose proof (Hwr p r b w0) as E;
        destruct (h_wavfile_write h p r b w0) as [[?|] ?];
        [discriminate E | clear E];
        cbn -[strftime folder raw_filename wav_path]
    end; reflexivity.
Qed.

(** [write] succeeds whenever the sampling rate is known, the array is not
    empty and no operating-system call fails. *)
Lemma write_succeeds {W : Type} (h : os W) (w : W) (filename : string)
    (signal : signal_arg) (samp_rate : option Z) (amp_perc : R) (d : dtype)
    (auto_timestamp : bool) :
  (forall path w0, fst (h_makedirs h path w0) = None) ->
  (forall path r b w0, fst (h_wavfile_write h path r b w0) = None) ->
  snd (resolve signal samp_rate) <> None ->
  fst (resolve signal samp_rate) <> [] ->
  result (run h (write filename signal samp_rate amp_perc d auto_timestamp) w)
    = inr tt.
Proof.
  intros Hmk Hwr Hrate Hdata. rewrite write_unfold.
  destruct (snd (resolve signal samp_rate)) as [rate |]; [|contradiction].
  unfold cast_buffer, out_data.
  destruct (fst (resolve signal samp_rate)) as [| x l]; [contradiction|].
  destruct (dtype_eqb d UInt8); cbn [Np.min Np.max map];
    now apply run_emit_succeeds.
Qed.

(** A file name without ["/"] is all raw file name. *)
Lemma bare_filename (filename : string) :
  contains "/" filename = false ->
  folder filename = "" /\ raw_filename filename = filename.
Proof.
  intros H. unfold folder, raw_filename.
  now rewrite (split_without_sep _ _ H).
Qed.

(** [folder] and [raw_filename] are the two sides of the last ["/"]. *)
Lemma split_at_last_slash (dir base : string) :
  contains "/" base = false ->
  folder (dir ++ "/" ++ base) = dir /\ raw_filename (dir ++ "/" ++ base) = base.
Proof.
  intros H. unfold folder, raw_filename.
  change (dir ++ "/" ++ base) with (dir ++ String "/" base).
  rewrite split_at_sep, (split_without_sep _ _ H).
  rewrite removelast_last, last_last. split; [|reflexivity].
  apply (join_split "/" dir).
Qed.

(** C4: given an array and no sampling rate, [write] raises
    [ValueError("Sampling rate is undefined.")] at once: the program issues
    no operating-system call, so under every operating system the run has
    an empty trace and leaves the state as it was. *)
Theorem missing_samp_rate_before_io (filename : string) (a : list R)
    (amp_perc : R) (d : dtype) (auto_timestamp : bool) :
  write filename (Array a) None amp_perc d auto_timestamp
    = Raise (ValueError "Sampling rate is undefined.") /\
  forall (W : Type) (h : os W) (w : W),
    run h (write filename (Array a) None amp_perc d auto_timestamp) w
      = mkOutcome (inl (ValueError "Sampling rate is undefined.")) w [].
Proof. split; reflexivity. Qed.

(** C7: given a [Signal], [write] takes the sampling rate from its
    [samp_rate] field and the data from its [data] field, whatever
    [samp_rate] argument is passed: the call is the call on the array
    [signal.data] with [signal.samp_rate], every [wavfile.write] call of
    every run carries that rate and the cast of the normalised
    [signal.data], and a successful run wrote exactly one such file. *)
Theorem signal_supplies_rate_and_data (filename : string) (s : Signal)
    (samp_rate : option Z) (amp_perc : R) (d : dtype) (auto_timestamp : bool) :
  resolve (SignalObj s) samp_rate = (data s, Some (SimpleSignal.samp_rate s)) /\
  write filename (SignalObj s) samp_rate amp_perc d auto_timestamp
    = write filename (Array (data s)) (Some (SimpleSignal.samp_rate s))
            amp_perc d auto_timestamp /\
  forall (W : Type) (h : os W) (w : W),
    let o := run h (write filename (SignalObj s) samp_rate amp_perc d
                          auto_timestamp) w in
    Forall (writes_only (SimpleSignal.samp_rate s)
                        (cast_buffer d amp_perc (data s))) (trace o) /\
    (result o = inr tt ->
     exists path buf,
       cast_buffer d amp_perc (data s) = inr buf /\
       written (trace o) = [(path, SimpleSignal.samp_rate s, buf)]).
Proof.
  split; [reflexivity|]. split; [reflexivity|].
  intros W h w o. subst o. rewrite write_unfold. cbn [resolve fst snd].
  destruct (cast_buffer d amp_perc (data s)) as [e | buf].
  - split; [constructor | discriminate].
  - split; [apply run_emit_writes|].
    intros H. destruct (run_emit_success h w _ _ _ _ H) as [stamp [Hw _]].
    eauto.
Qed.

(** C6: a successful [write] wrote one file, at
    [folder ++ "/" ++ stamp ++ raw_filename ++ ".wav"]; [folder] and
    [raw_filename] are what stands before and after the last ["/"] of the
    file name (an empty folder when there is none); [stamp] is empty without
    [auto_timestamp], and with it the 13 characters of
    [strftime("%y%m%d-%H%M%S")] at the time [datetime.now()] returned,
    followed by ["-"]. *)
Theorem output_path {W : Type} (h : os W) (w : W) (filename : string)
    (signal : signal_arg) (samp_rate : option Z) (amp_perc : R) (d : dtype)
    (auto_timestamp : bool) :
  result (run h (write filename signal samp_rate amp_perc d auto_timestamp) w)
    = inr tt ->
  exists stamp rate buf,
    written (trace (run h (write filename signal samp_rate amp_perc d
                                 auto_timestamp) w)) =
      [(folder filename ++ "/" ++ stamp ++ raw_filename filename ++ ".wav",
        rate, buf)] /\
    (if auto_timestamp
     then exists t,
       In (EvNow t) (trace (run h (write filename signal samp_rate amp_perc d
                                         auto_timestamp) w)) /\
       stamp = strftime t ++ "-" /\ String.length stamp = 14%nat
     else stamp = "") /\
    (contains "/" filename = false ->
     folder filename = "" /\ raw_filename filename = filename) /\
    (forall dir base, filename = dir ++ "/" ++ base ->
                      contains "/" base = false ->
                      folder filename = dir /\ raw_filename filename = base).
Proof.
  rewrite write_unfold.
  destruct (snd (resolve signal samp_rate)) as [rate |]; [|discriminate].
  destruct (cast_buffer d amp_perc (fst (resolve signal samp_rate)))
    as [e | buf]; [discriminate|].
  intros H. destruct (run_emit_success h w _ _ _ _ H) as [stamp [Hw Hs]].
  exists stamp, rate, buf. split; [exact Hw|]. split; [|split].
  - destruct auto_timestamp; [|exact Hs].
    destruct Hs as [t [Hin ->]]. exists t. split; [exact Hin|].
    split; [reflexivity|].
    now rewrite length_append, strftime_length.
  - apply bare_filename.
  - intros dir base -> Hb. now apply split_at_last_slash.
Qed.

(** C10: when the file name holds no ["/"], no run of [write] asks whether
    a directory exists or creates one, and a successful run wrote its one
    file at ["/" ++ stamp ++ filename ++ ".wav"], a path that starts at the
    root of the file system. *)
Theorem bare_filename_written_at_root {W : Type} (h : os W) (w : W)
    (filename : string) (signal : signal_arg) (samp_rate : option Z)
    (amp_perc : R) (d : dtype) (auto_timestamp : bool) :
  contains "/" filename = false ->
  forallb (fun e => negb (concerns_folder e))
          (trace (run h (write filename signal samp_rate amp_perc d
                               auto_timestamp) w)) = true /\
  (result (run h (write filename signal samp_rate amp_perc d auto_timestamp) w)
     = inr tt ->
   exists stamp rate buf,
     written (trace (run h (write filename signal samp_rate amp_perc d
                                  auto_timestamp) w))
       = [("/" ++ stamp ++ filename ++ ".wav", rate, buf)] /\
     (if auto_timestamp
      then exists t,
        In (EvNow t) (trace (run h (write filename signal samp_rate amp_perc d
                                          auto_timestamp) w)) /\
        stamp = strftime t ++ "-"
      else stamp = "")).
Proof.
  intros Hbare. rewrite write_unfold.
  destruct (bare_filename filename Hbare) as [Hf Hr].
  destruct (snd (resolve signal samp_rate)) as [rate |];
    [|split; [reflexivity | discriminate]].
  destruct (cast_buffer d amp_perc (fst (resolve signal samp_rate)))
    as [e | buf]; [split; [reflexivity | discriminate]|].
  split; [now apply run_emit_no_folder|].
  intros H. destruct (run_emit_success h w _ _ _ _ H) as [stamp [Hw Hs]].
  exists stamp, rate, buf. split; [|exact Hs].
  rewrite Hw. unfold wav_path. now rewrite Hf, Hr.
Qed.

(** *** The theorems at work on the operating system in memory *)

(** A two-sample array written as 32-bit floats under ["out/tone"] with a
    time stamp: the run succeeds after creating ["out"], and the file is
    ["out/261103-090507-tone.wav"]. *)
Lemma output_path_witness :
  let o := run MemOs.handlers
               (write "out/tone" (Array [0; 1]) (Some 8000%Z) 1 Float32 true)
               MemOs.fresh in
  (result o = inr tt /\
   exists buf, trace o =
     [EvPathExists "out" false; EvMakeDirs "out" None;
      EvNow (MemOs.clock MemOs.fresh);
      EvWavfileWrite "out/261103-090507-tone.wav" 8000 buf None]) /\
  exists stamp rate buf,
    written (trace o) =
      [(folder "out/tone" ++ "/" ++ stamp ++ raw_filename "out/tone" ++ ".wav",
        rate, buf)] /\
    (exists t, In (EvNow t) (trace o) /\ stamp = strftime t ++ "-" /\
               String.length stamp = 14%nat) /\
    (contains "/" "out/tone" = false ->
     folder "out/tone" = "" /\ raw_filename "out/tone" = "out/tone") /\
    (forall dir base, "out/tone" = dir ++ "/" ++ base ->
                      contains "/" base = false ->
                      folder "out/tone" = dir /\ raw_filename "out/tone" = base).
Proof.
  split.
  - split; [reflexivity|]. eexists. reflexivity.
  - apply (output_path MemOs.handlers MemOs.fresh "out/tone" (Array [0; 1])
             (Some 8000%Z) 1 Float32 true).
    reflexivity.
Defined.

(** The same array written under the bare name ["tone"], without a time
    stamp: the only call is the [wavfile.write] of ["/tone.wav"]. *)
Lemma bare_filename_written_at_root_witness :
  let o := run MemOs.handlers
               (write "tone" (Array [0; 1]) (Some 8000%Z) 1 Int16 false)
               MemOs.fresh in
  contains "/" "tone" = false /\
  (result o = inr tt /\
   exists buf, trace o = [EvWavfileWrite "/tone.wav" 8000 buf None]) /\
  forallb (fun e => negb (concerns_folder e)) (trace o) = true /\
  (result o = inr tt ->
   exists stamp rate buf,
     written (trace o) = [("/" ++ stamp ++ "tone" ++ ".wav", rate, buf)] /\
     stamp = "").
Proof.
  split; [reflexivity|]. split.
  - split; [reflexivity|]. eexists. reflexivity.
  - apply (bare_filename_written_at_root MemOs.handlers MemOs.fresh "tone"
             (Array [0; 1]) (Some 8000%Z) 1 Int16 false).
    reflexivity.
Defined.

(** One second of a 440 Hz sine at 4 samples per second has the four
    samples at the times 0, 1/4, 2/4 and 3/4. *)
Lemma sine_four_samples :
  data (SineSignal 440 4 1) =
  map (fun t => sin (PI * 440 * t)) (map (fun n => n / 4) (map INR [0; 1; 2; 3]%nat)).
Proof.
  unfold SineSignal, init. cbn [data gen_data].
  unfold Np.arange, Np.arange_len.
  rewrite (RoundingFacts.ceil_unique _ 4%Z) by lra.
  reflexivity.
Qed.

(** That signal written with a conflicting [samp_rate] argument of 8000:
    the file carries the signal's rate, 4. *)
Lemma signal_supplies_rate_and_data_witness :
  let s := SineSignal 440 4 1 in
  let o := run MemOs.handlers
               (write "tone" (SignalObj s) (Some 8000%Z) 1 Float32 false)
               MemOs.fresh in
  result o = inr tt /\
  exists path buf,
    cast_buffer Float32 1 (data s) = inr buf /\
    written (trace o) = [(path, 4%Z, buf)].
Proof.
  intros s o.
  assert (Hres : result o = inr tt).
  { subst o. rewrite write_unfold. cbn [resolve fst snd].
    unfold cast_buffer. subst s. rewrite sine_four_samples. reflexivity. }
  split; [exact Hres|].
  destruct (signal_supplies_rate_and_data "tone" s (Some 8000%Z) 1 Float32 false)
    as [_ [_ H]].
  destruct (H _ MemOs.handlers MemOs.fresh) as [_ Hok].
  exact (Hok Hres).
Defined.

End WavFacts.

(** ** simple_signal.py: the shapes of the waveforms *)

Module WaveformFacts.
Import Rounding RoundingFacts NpFacts SimpleSignal.


Lemma map_nth_error_ltb {A : Type} (g : R -> A) (sr : Z) (d : R) (i : nat) :
  nth_error
    (map g (map (fun n => n / IZR sr) (Np.arange (d * IZR sr)))) i =
  if (i <? Np.arange_len (d * IZR sr))%nat
  then Some (g (INR i / IZR sr)) else None.
Proof.
  rewrite !nth_error_map, arange_nth_error.
  now destruct (i <? Np.arange_len (d * IZR sr))%nat.
Qed.

(** At phase 0 the square wave is on its high half. *)
Lemma square_at_zero : Scipy.square 0 = 1.
Proof.
  assert (HPI := PI_RGT_0).
  unfold Scipy.square, Scipy.square_duty, Np.mod_.
  replace (0 / (2 * PI)) with 0 by (unfold Rdiv; ring).
  rewrite (floor_IZR 0).
  destruct (Rlt_dec (0 - 0 * (2 * PI)) (1 / 2 * 2 * PI)) as [_ | N];
    [reflexivity | exfalso; apply N; lra].
Qed.

(** X1: every sample of a square signal is 1 or -1, so no sample is 0, also
    where the phase is a multiple of pi; and when [pi * freq] is within the
    [float64] range the first sample, at phase 0, is 1. *)
Theorem square_samples_one_or_minus_one (f : R) (sr : Z) (d : R) :
  Forall (fun q => q = 1 \/ q = -1) (data (SquareSignal f sr d)) /\
  (Rabs (PI * f) <= Np.float64_max ->
   nth_error (data (SquareSignal f sr d)) 0 =
     if (0 <? Np.arange_len (d * IZR sr))%nat then Some 1 else None).
Proof.
  unfold SquareSignal, init. cbn [data gen_data]. split.
  - apply Forall_forall. intros q Hq. apply in_map_iff in Hq.
    destruct Hq as [t [<- _]]. unfold Scipy.square.
    destruct (Rlt_dec _ _); [now left | now right].
  - intros _. rewrite map_nth_error_ltb.
    destruct (0 <? Np.arange_len (d * IZR sr))%nat; [|reflexivity].
    f_equal. simpl INR.
    replace (PI * f * (0 / IZR sr)) with 0 by (unfold Rdiv; ring).
    apply square_at_zero.
Qed.

(** A square signal of 440 Hz, 4 samples, starts at 1. *)
Lemma square_samples_one_or_minus_one_witness :
  Rabs (PI * 440) <= Np.float64_max /\
  nth_error (data (SquareSignal 440 4 1)) 0 = Some 1.
Proof.
  assert (H4 := PI_4). assert (H0 := PI_RGT_0).
  assert (Hmax : 1760 <= Np.float64_max).
  { unfold Np.float64_max. apply IZR_le. vm_compute. discriminate. }
  assert (Hf : Rabs (PI * 440) <= Np.float64_max).
  { rewrite Rabs_pos_eq by lra. lra. }
  split; [exact Hf|].
  destruct (square_samples_one_or_minus_one 440 4 1) as [_ H].
  rewrite (H Hf). unfold Np.arange_len.
  rewrite (ceil_unique _ 4%Z) by lra. reflexivity.
Defined.


(** X3: a sine and a cosine signal repeat after [2 / freq] seconds (the
    phase is [pi * freq * t], not [2 * pi * freq * t]): when [p] samples
    last that long, [freq * p = 2 * samp_rate], the sample at index [i + p]
    is the sample at index [i]. *)
Theorem sine_cosine_repeat_every_two_over_freq (f : R) (sr : Z) (d : R)
    (p i : nat) :
  IZR sr <> 0 ->
  f * INR p = 2 * IZR sr ->
  (i + p < Np.arange_len (d * IZR sr))%nat ->
  nth_error (data (SineSignal f sr d)) (i + p)
    = nth_error (data (SineSignal f sr d)) i /\
  nth_error (data (CosineSignal f sr d)) (i + p)
    = nth_error (data (CosineSignal f sr d)) i /\
  nth_error (data (SineSignal f sr d)) i <> None /\
  nth_error (data (CosineSignal f sr d)) i <> None.
Proof.
  intros Hsr Hp Hlt.
  assert (Hi : (i <? Np.arange_len (d * IZR sr))%nat = true)
    by (apply Nat.ltb_lt; lia).
  apply Nat.ltb_lt in Hlt.
  assert (E : PI * f * (INR (i + p) / IZR sr)
              = PI * f * (INR i / IZR sr) + 2 * INR 1 * PI).
  { rewrite plus_INR.
    replace (PI * f * ((INR i + INR p) / IZR sr))
      with (PI * f * (INR i / IZR sr) + PI * (f * INR p) / IZR sr)
      by (field; exact Hsr).
    rewrite Hp. simpl INR. field. exact Hsr. }
  unfold SineSignal, CosineSignal, init. cbn [data gen_data].
  rewrite !map_nth_error_ltb, Hlt, Hi, E, sin_period, cos_period.
  repeat split; discriminate.
Qed.

(** One period of a 2 Hz wave at 4 samples per second is 4 samples. *)
Lemma sine_cosine_repeat_every_two_over_freq_witness :
  nth_error (data (SineSignal 2 4 2)) (1 + 4)
    = nth_error (data (SineSignal 2 4 2)) 1 /\
  nth_error (data (CosineSignal 2 4 2)) (1 + 4)
    = nth_error (data (CosineSignal 2 4 2)) 1 /\
  nth_error (data (SineSignal 2 4 2)) 1 <> None /\
  nth_error (data (CosineSignal 2 4 2)) 1 <> None.
Proof.
  apply (sine_cosine_repeat_every_two_over_freq 2 4 2 4 1).
  - lra.
  - simpl. lra.
  - unfold Np.arange_len. rewrite (ceil_unique _ 8%Z) by lra. simpl. lia.
Defined.

End WaveformFacts.

(** ** wav.py: ranges, failures and the order of the calls *)

Module EncoderFacts.
Import Rounding RoundingFacts NpFacts SimpleSignal Str StrFacts Wav Observe.

(** *** Extremes of an array *)









(** *** Casts *)






(** *** Ranges of the normalised output *)







(** *** What the normalisation does not depend on *)












(** *** Pieces of a file name *)

Local Open Scope string_scope.

Lemma append_assoc (a b c : string) : (a ++ b) ++ c = a ++ (b ++ c).
Proof. induction a as [| x a IH]; simpl; [reflexivity | now rewrite IH]. Qed.

(** No piece of a split holds the separator. *)
Lemma split_pieces_clean (sep : ascii) (s : string) :
  Forall (fun piece => contains sep piece = false) (split sep s).
Proof.
  induction s as [| c s IH]; simpl.
  - constructor; [reflexivity | constructor].
  - destruct (Ascii.eqb c sep) eqn:E.
    + constructor; [reflexivity | exact IH].
    + pose proof (split_nonempty sep s) as Hne.
      destruct (split sep s) as [| h t]; [contradiction|].
      inversion IH; subst. constructor; [|assumption].
      simpl. now rewrite E.
Qed.

Lemma concat_snoc (sep : string) (l : list string) (x : string) :
  l <> [] -> String.concat sep (l ++ [x]) = String.concat sep l ++ sep ++ x.
Proof.
  induction l as [| a l IH]; [contradiction|]. intros _.
  destruct l as [| b l].
  - reflexivity.
  - change (String.concat sep ((a :: b :: l) ++ [x]))
      with (a ++ sep ++ String.concat sep ((b :: l) ++ [x])).
    rewrite IH by discriminate.
    change (String.concat sep (a :: b :: l))
      with (a ++ sep ++ String.concat sep (b :: l)).
    now rewrite !append_assoc.
Qed.

Lemma last_in_Forall {A : Type} (P : A -> Prop) (l : list A) (d : A) :
  l <> [] -> Forall P l -> P (last l d).
Proof.
  intros Hne H. rewrite (app_removelast_last d Hne) in H.
  apply Forall_app in H. destruct H as [_ H]. now inversion H.
Qed.

Lemma raw_filename_clean (filename : string) :
  contains "/" (raw_filename filename) = false.
Proof.
  unfold raw_filename.
  apply (last_in_Forall (fun piece => contains "/" piece = false)).
  - apply split_nonempty.
  - apply split_pieces_clean.
Qed.

(** The folder and the raw file name put the file name back together. *)
Lemma folder_raw_rejoin (filename : string) :
  contains "/" filename = true ->
  folder filename ++ "/" ++ raw_filename filename = filename.
Proof.
  intros Hc. unfold folder, raw_filename, join.
  pose proof (split_nonempty "/" filename) as Hne.
  pose proof (join_split "/" filename) as Hj. unfold join in Hj.
  pose proof (split_pieces_clean "/" filename) as Hclean.
  rewrite (app_removelast_last "" Hne) in Hj, Hclean.
  destruct (removelast (split "/" filename)) as [| a l] eqn:E.
  - simpl in Hj. apply Forall_app in Hclean. destruct Hclean as [_ Hclean].
    inversion Hclean as [| ? ? Hlast _]; subst.
    rewrite Hj in Hlast. congruence.
  - rewrite concat_snoc in Hj by discriminate. exact Hj.
Qed.

(** *** Failures and the order of the calls *)

Lemma out_data_length (d : dtype) (a : R) (data out : list R) :
  out_data d a data = inr out -> List.length out = List.length data.
Proof.
  unfold out_data. destruct (dtype_eqb d UInt8).
  - destruct (Np.min data); [|discriminate].
    destruct (Np.max _); [|discriminate].
    intros [= <-]. now rewrite !length_map.
  - destruct (Np.max data); [|discriminate].
    intros [= <-]. now rewrite length_map.
Qed.

Lemma cast_buffer_length (d : dtype) (amp_perc : R) (data : list R)
    (buf : list stored) :
  cast_buffer d amp_perc data = inr buf -> List.length buf = List.length data.
Proof.
  unfold cast_buffer.
  destruct (out_data d (amplitude amp_perc d) data) as [e | out] eqn:E;
    [discriminate|].
  intros [= <-]. rewrite length_map. exact (out_data_length _ _ _ _ E).
Qed.

Lemma cast_buffer_errors (d : dtype) (amp_perc : R) (data : list R) (e : exn) :
  cast_buffer d amp_perc data = inl e ->
  data = [] /\
  e = empty_reduction (if dtype_eqb d UInt8 then "minimum" else "maximum").
Proof.
  unfold cast_buffer, out_data.
  destruct data as [| x l]; destruct (dtype_eqb d UInt8); cbn [Np.min Np.max map];
    intros H; try discriminate H; inversion H; now split.
Qed.

(** X11: an empty array with a sampling rate makes [write] raise
    [ValueError] from the reduction ([np.min] for the unsigned 8-bit target,
    [np.max] for the others) before any operating-system call: no folder is
    created, no file written, the state untouched. *)
Theorem empty_array_raises_before_io (filename : string) (rate : Z)
    (amp_perc : R) (d : dtype) (auto_timestamp : bool)
    (W : Type) (h : os W) (w : W) :
  run h (write filename (Array []) (Some rate) amp_perc d auto_timestamp) w
    = mkOutcome
        (inl (ValueError
                ("zero-size array to reduction operation "
                 ++ (if dtype_eqb d UInt8 then "minimum" else "maximum")
                 ++ " which has no identity")))
        w [].
Proof. destruct d; reflexivity. Qed.

(** X12: a signal built with [duration * samp_rate <= 0] has no samples,
    and [write] given that signal raises the [ValueError] of the empty
    reduction before any operating-system call. *)
Theorem signal_without_samples_raises (k : waveform) (f : R) (sr : Z)
    (dur : R) (filename : string) (samp_rate : option Z) (amp_perc : R)
    (d : dtype) (auto_timestamp : bool) (W : Type) (h : os W) (w : W) :
  dur * IZR sr <= 0 ->
  data (init k f sr dur) = [] /\
  run h (write filename (SignalObj (init k f sr dur)) samp_rate amp_perc d
               auto_timestamp) w
    = mkOutcome
        (inl (empty_reduction
                (if dtype_eqb d UInt8 then "minimum" else "maximum")))
        w [].
Proof.
  intros Hle.
  assert (E : data (init k f sr dur) = []).
  { apply length_zero_iff_nil. unfold init. cbn [data].
    rewrite SignalFacts.gen_data_length, length_map, arange_length.
    unfold Np.arange_len. destruct (ceil_bounds (dur * IZR sr)) as [C1 _].
    assert (L : (ceil (dur * IZR sr) < 1)%Z) by (apply lt_IZR; lra).
    lia. }
  split; [exact E|].
  rewrite WavFacts.write_unfold. cbn [resolve fst snd]. rewrite E.
  destruct d; reflexivity.
Qed.

Lemma signal_without_samples_raises_witness :
  data (init Sine 440 44100 0) = [] /\
  run MemOs.handlers
      (write "out/tone" (SignalObj (init Sine 440 44100 0)) None 1 Int16 true)
      MemOs.fresh
    = mkOutcome (inl (empty_reduction "maximum")) MemOs.fresh [].
Proof.
  apply (signal_without_samples_raises Sine 440 44100 0 "out/tone" None 1
           Int16 true MemOs.state MemOs.handlers MemOs.fresh).
  lra.
Defined.

(** X13: the calls of a successful [write], in order: with a folder, one
    [os.path.exists] on it, followed by one [os.makedirs] only when the
    answer was no; then, with [auto_timestamp], one [datetime.now()]; last,
    the one [wavfile.write].  Without a folder the first two are absent. *)
Theorem calls_in_order {W : Type} (h : os W) (w : W) (filename : string)
    (signal : signal_arg) (samp_rate : option Z) (amp_perc : R) (d : dtype)
    (auto_timestamp : bool) :
  result (run h (write filename signal samp_rate amp_perc d auto_timestamp) w)
    = inr tt ->
  exists present t rate buf,
    trace (run h (write filename signal samp_rate amp_perc d auto_timestamp) w)
    = ((if folder filename =? "" then []
        else EvPathExists (folder filename) present
             :: (if present then [] else [EvMakeDirs (folder filename) None]))
       ++ (if auto_timestamp then [EvNow t] else [])
       ++ [EvWavfileWrite
             (wav_path (folder filename)
                       (if auto_timestamp then strftime t ++ "-" else "")
                       (raw_filename filename))
             rate buf None])%list.
Proof.
  rewrite WavFacts.write_unfold.
  destruct (snd (resolve signal samp_rate)) as [rate |]; [|discriminate].
  destruct (cast_buffer d amp_perc (fst (resolve signal samp_rate)))
    as [e | buf]; [discriminate|].
  unfold emit, create_folder.
  destruct (folder filename =? ""); destruct auto_timestamp;
    cbn -[strftime folder raw_filename wav_path];
    WavFacts.os_cases h; intros H; try discriminate H;
    first [ exists true, (h_now h w), rate, buf; reflexivity
          | exists false, (h_now h w), rate, buf; reflexivity
          | exists true; eexists; exists rate, buf; reflexivity
          | exists false; eexists; exists rate, buf; reflexivity ].
Qed.

Lemma calls_in_order_witness :
  exists present t rate buf,
    trace (run MemOs.handlers
               (write "out/tone" (Array [0; 1]) (Some 8000%Z) 1 Float32 true)
               MemOs.fresh)
    = ((if folder "out/tone" =? "" then []
        else EvPathExists (folder "out/tone") present
             :: (if present then [] else [EvMakeDirs (folder "out/tone") None]))
       ++ [EvNow t]
       ++ [EvWavfileWrite
             (wav_path (folder "out/tone") (strftime t ++ "-")
                       (raw_filename "out/tone"))
             rate buf None])%list.
Proof.
  apply (calls_in_order MemOs.handlers MemOs.fresh "out/tone" (Array [0; 1])
           (Some 8000%Z) 1 Float32 true).
  reflexivity.
Defined.

(** X14: for the four documented sample types, a [write] that fails
    failed in one of three ways: before any call, on a missing sampling
    rate or an empty array, the state untouched; on [os.makedirs], called
    after [os.path.exists] answered no, and then [wavfile.write] is not
    called; or on [wavfile.write], called once, as the last call, after the
    calls a successful [write] makes before it.  The exception [write]
    raises is the one of the failed call. *)
Theorem failure_modes {W : Type} (h : os W) (w : W)
    (filename : string) (signal : signal_arg) (samp_rate : option Z)
    (amp_perc : R) (d : dtype) (auto_timestamp : bool) (e : exn) :
  result (run h (write filename signal samp_rate amp_perc d auto_timestamp) w)
    = inl e ->
  (trace (run h (write filename signal samp_rate amp_perc d
                       auto_timestamp) w) = [] /\
   final (run h (write filename signal samp_rate amp_perc d
                       auto_timestamp) w) = w /\
   (e = missing_samp_rate \/ e = empty_reduction "minimum"
    \/ e = empty_reduction "maximum")) \/
  (folder filename <> "" /\
   trace (run h (write filename signal samp_rate amp_perc d
                       auto_timestamp) w)
     = [EvPathExists (folder filename) false;
        EvMakeDirs (folder filename) (Some e)]) \/
  exists present t rate buf,
    trace (run h (write filename signal samp_rate amp_perc d
                        auto_timestamp) w)
    = ((if folder filename =? "" then []
        else EvPathExists (folder filename) present
             :: (if present then [] else [EvMakeDirs (folder filename) None]))
       ++ (if auto_timestamp then [EvNow t] else [])
       ++ [EvWavfileWrite
             (wav_path (folder filename)
                       (if auto_timestamp then strftime t ++ "-" else "")
                       (raw_filename filename))
             rate buf (Some e)])%list.
Proof.
  rewrite WavFacts.write_unfold.
  destruct (snd (resolve signal samp_rate)) as [rate |]; cbn [run];
    [|intros [= <-]; left; repeat split; now left].
  destruct (cast_buffer d amp_perc (fst (resolve signal samp_rate)))
    as [e0 | buf] eqn:Ecast.
  - cbn [run result trace final]. intros [= <-].
    destruct (cast_buffer_errors _ _ _ _ Ecast) as [_ ->].
    left; repeat split.
    destruct (dtype_eqb d UInt8); [right; now left | right; now right].
  - unfold emit, create_folder.
    destruct (folder filename =? "") eqn:Ef; destruct auto_timestamp;
      cbn -[strftime folder raw_filename wav_path];
      WavFacts.os_cases h; intros H; try discriminate H;
      injection H as <-;
      first [ right; left; split;
              [intros E; rewrite E in Ef; discriminate Ef | reflexivity]
            | right; right;
              first [ exists true, (h_now h w), rate, buf; reflexivity
                    | exists false, (h_now h w), rate, buf; reflexivity
                    | exists true; eexists; exists rate, buf; reflexivity
                    | exists false; eexists; exists rate, buf; reflexivity ] ].
Qed.

(** On a disk that refuses changes the folder cannot be created, and
    [wavfile.write] is never reached. *)
Lemma failure_modes_witness :
  let o := run MemOs.read_only
               (write "out/tone" (Array [0; 1]) (Some 8000%Z) 1 Float32 true)
               MemOs.fresh in
  (result o = inl (OSError "Read-only file system") /\
   trace o = [EvPathExists "out" false;
              EvMakeDirs "out" (Some (OSError "Read-only file system"))]) /\
  ((trace o = [] /\ final o = MemOs.fresh /\
    (OSError "Read-only file system" = missing_samp_rate
     \/ OSError "Read-only file system" = empty_reduction "minimum"
     \/ OSError "Read-only file system" = empty_reduction "maximum")) \/
   (folder "out/tone" <> "" /\
    trace o = [EvPathExists (folder "out/tone") false;
               EvMakeDirs (folder "out/tone")
                          (Some (OSError "Read-only file system"))]) \/
   exists present t rate buf,
     trace o
     = ((if folder "out/tone" =? "" then []
         else EvPathExists (folder "out/tone") present
              :: (if present then []
                  else [EvMakeDirs (folder "out/tone") None]))
        ++ [EvNow t]
        ++ [EvWavfileWrite
              (wav_path (folder "out/tone") (strftime t ++ "-")
                        (raw_filename "out/tone"))
              rate buf (Some (OSError "Read-only file system"))])%list).
Proof.
  split; [split; reflexivity|].
  apply (failure_modes MemOs.read_only MemOs.fresh "out/tone"
           (Array [0; 1]) (Some 8000%Z) 1 Float32 true
           (OSError "Read-only file system")).
  reflexivity.
Defined.

(** X15: the raw file name never holds a ["/"]; for a file name that holds
    one, the folder, a ["/"] and the raw file name give the file name back,
    so without a time stamp a successful [write] wrote the file
    [filename ++ ".wav"]. *)
Theorem slash_filename_written_in_place {W : Type} (h : os W) (w : W)
    (filename : string) (signal : signal_arg) (samp_rate : option Z)
    (amp_perc : R) (d : dtype) :
  contains "/" filename = true ->
  contains "/" (raw_filename filename) = false /\
  folder filename ++ "/" ++ raw_filename filename = filename /\
  (result (run h (write filename signal samp_rate amp_perc d false) w) = inr tt ->
   exists rate buf,
     written (trace (run h (write filename signal samp_rate amp_perc d false) w))
       = [(filename ++ ".wav", rate, buf)]).
Proof.
  intros Hc. split; [apply raw_filename_clean|].
  split; [now apply folder_raw_rejoin|].
  rewrite WavFacts.write_unfold.
  destruct (snd (resolve signal samp_rate)) as [rate |]; [|discriminate].
  destruct (cast_buffer d amp_perc (fst (resolve signal samp_rate)))
    as [e | buf]; [discriminate|].
  intros H. destruct (WavFacts.run_emit_success h w _ _ _ _ H) as [stamp [Hw ->]].
  exists rate, buf. rewrite Hw. unfold wav_path. do 3 f_equal.
  rewrite <- (folder_raw_rejoin filename Hc) at 3.
  simpl. now rewrite !append_assoc.
Qed.

Lemma slash_filename_written_in_place_witness :
  contains "/" (raw_filename "a/b/tone") = false /\
  folder "a/b/tone" ++ "/" ++ raw_filename "a/b/tone" = "a/b/tone" /\
  (result (run MemOs.handlers
               (write "a/b/tone" (Array [0; 1]) (Some 8000%Z) 1 Float32 false)
               MemOs.fresh) = inr tt ->
   exists rate buf,
     written (trace (run MemOs.handlers
                         (write "a/b/tone" (Array [0; 1]) (Some 8000%Z) 1
                                Float32 false)
                         MemOs.fresh))
       = [("a/b/tone" ++ ".wav", rate, buf)]).
Proof.
  apply (slash_filename_written_in_place MemOs.handlers MemOs.fresh "a/b/tone"
           (Array [0; 1]) (Some 8000%Z) 1 Float32).
  reflexivity.
Defined.

(** X16: a generated signal with [duration * samp_rate > 0], written under
    an operating system whose [os.makedirs] and [wavfile.write] do not
    fail: [write] succeeds and writes one file, at the signal's sampling
    rate, holding as many samples as the signal,
    [ceil(duration * samp_rate)]. *)
Theorem generated_signal_written {W : Type} (h : os W) (w : W)
    (filename : string) (k : waveform) (f : R) (sr : Z) (dur : R)
    (samp_rate : option Z) (amp_perc : R) (d : dtype) (auto_timestamp : bool) :
  (forall path w0, fst (h_makedirs h path w0) = None) ->
  (forall path r b w0, fst (h_wavfile_write h path r b w0) = None) ->
  0 < dur * IZR sr ->
  result (run h (write filename (SignalObj (init k f sr dur)) samp_rate
                       amp_perc d auto_timestamp) w) = inr tt /\
  exists path buf,
    written (trace (run h (write filename (SignalObj (init k f sr dur))
                                 samp_rate amp_perc d auto_timestamp) w))
      = [(path, sr, buf)] /\
    List.length buf = Z.to_nat (ceil (dur * IZR sr)).
Proof.
  intros Hmk Hwr Hpos.
  assert (Hlen : List.length (data (init k f sr dur))
                 = Z.to_nat (ceil (dur * IZR sr))).
  { unfold init. cbn [data].
    now rewrite SignalFacts.gen_data_length, length_map, arange_length. }
  assert (Hne : data (init k f sr dur) <> []).
  { intros E. rewrite E in Hlen. simpl in Hlen.
    destruct (ceil_bounds (dur * IZR sr)) as [_ C2].
    assert (L : (0 < ceil (dur * IZR sr))%Z) by (apply lt_IZR; lra).
    lia. }
  assert (Hres : result (run h (write filename (SignalObj (init k f sr dur))
                    samp_rate amp_perc d auto_timestamp) w) = inr tt).
  { apply WavFacts.write_succeeds; try assumption; discriminate. }
  split; [exact Hres|].
  revert Hres. rewrite WavFacts.write_unfold. cbn [resolve fst snd].
  destruct (cast_buffer d amp_perc (data (init k f sr dur)))
    as [e | buf] eqn:Ecast; [discriminate|].
  intros H. destruct (WavFacts.run_emit_success h w _ _ _ _ H) as [stamp [Hw _]].
  eexists. exists buf. split; [exact Hw|].
  rewrite (cast_buffer_length _ _ _ _ Ecast). exact Hlen.
Qed.

Lemma generated_signal_written_witness :
  result (run MemOs.handlers
              (write "out/tone" (SignalObj (init Sawtooth 440 8000 (1 / 2)))
                     None 1 UInt8 true) MemOs.fresh) = inr tt /\
  exists path buf,
    written (trace (run MemOs.handlers
                        (write "out/tone"
                               (SignalObj (init Sawtooth 440 8000 (1 / 2)))
                               None 1 UInt8 true) MemOs.fresh))
      = [(path, 8000%Z, buf)] /\
    List.length buf = Z.to_nat (ceil (1 / 2 * IZR 8000)).
Proof.
  apply (generated_signal_written MemOs.handlers MemOs.fresh "out/tone"
           Sawtooth 440 8000 (1 / 2) None 1 UInt8 true).
  - intros path w0. reflexivity.
  - intros path r b w0. reflexivity.
  - lra.
Defined.

End EncoderFacts.
